(** * kicad-collab: the plugin package initialiser [plugin/__init__.py]

    The package initialiser is a module body of three statements: a
    docstring, and the assignments of [__version__] and [__author__].
    Python runs a module body in the module's namespace (its [__dict__]);
    a docstring statement and a module-level assignment each store one name
    there.  The development embeds the body as a state-passing program over
    that namespace, with the trace of what it does, and the host's side of
    the contract: loading (or reloading) the module and reading attributes. *)

From Stdlib Require Import Ascii.
From stdpp Require Import gmap strings list.

(** ** Python objects as far as a module namespace holds them *)

Module Py.

(** The body only ever produces [str] objects; the other constructors are
    what a namespace may hold before the body runs (the attributes the
    import machinery sets) or what a module body could bind in general. *)
Inductive value : Type :=
| VNone
| VStr (s : string)
| VFunction (qualname : string)
| VClass (qualname : string)
| VModule (name : string)
| VObject (type_name : string).

Definition is_str (v : value) : bool :=
  match v with VStr _ => true | _ => false end.

(** [callable(v)]: functions and classes are what a module can offer to
    be called. *)
Definition callable (v : value) : bool :=
  match v with VFunction _ | VClass _ => true | _ => false end.

(** [len(s) > 0] for a [str]; every other object is not a non-empty
    string. *)
Definition nonempty_str (v : value) : bool :=
  match v with
  | VStr (String _ _) => true
  | _ => false
  end.

Inductive exn : Type :=
| NameError (name : string)
| AttributeError (name : string)
| TypeError (msg : string).

Inductive Except (A : Type) : Type :=
| error (e : exn)
| ok (a : A).
Arguments error {A} e.
Arguments ok {A} a.

(** What a statement can do that is visible outside its own value. *)
Inductive event : Type :=
| EvStore (name : string) (v : value)
| EvImport (modname : string)
| EvCall (callee : string)
| EvIO (what : string)
| EvSpawn (what : string)
| EvAcquire (what : string).

Definition stored_name (e : event) : option string :=
  match e with EvStore n _ => Some n | _ => None end.

Definition stored_value (e : event) : option value :=
  match e with EvStore _ v => Some v | _ => None end.

Definition is_store (e : event) : bool :=
  match e with EvStore _ _ => true | _ => false end.

Definition is_import (e : event) : bool :=
  match e with EvImport _ => true | _ => false end.

Definition is_call (e : event) : bool :=
  match e with EvCall _ => true | _ => false end.

Definition is_io (e : event) : bool :=
  match e with EvIO _ => true | _ => false end.

Definition is_spawn (e : event) : bool :=
  match e with EvSpawn _ => true | _ => false end.

Definition is_acquire (e : event) : bool :=
  match e with EvAcquire _ => true | _ => false end.

(** The frame a module body runs in: the module's namespace and the
    trace of events so far. *)
Record frame : Type := Frame {
  f_globals : gmap string value;
  f_trace : list event
}.

Definition Exec (A : Type) : Type := frame -> Except (A * frame).

Definition ret {A} (a : A) : Exec A := fun f => ok (a, f).

Definition bind {A B} (m : Exec A) (k : A -> Exec B) : Exec B :=
  fun f =>
    match m f with
    | error e => error e
    | ok (a, f') => k a f'
    end.

(** [name = v] at module level: the name is (re)bound in the namespace.
    Storing into a module's dict raises nothing. *)
Definition store_name (name : string) (v : value) : Exec unit :=
  fun f =>
    ok (tt, {| f_globals := <[name := v]> (f_globals f);
               f_trace := f_trace f ++ [EvStore name v] |}).

(** [getattr(module, name)] as the host does it: a lookup in the
    namespace, [AttributeError] when the name is not there.  The namespace
    is handed back as it was. *)
Definition getattr (name : string) (ns : gmap string value)
  : Except value * gmap string value :=
  (match ns !! name with
   | Some v => ok v
   | None => error (AttributeError name)
   end, ns).

(** [types.ModuleType(name)]: the namespace of a module object before its
    body has run. *)
Definition new_module (name : string) : gmap string value :=
  <["__name__" := VStr name]>
    (<["__doc__" := VNone]>
       (<["__package__" := VNone]>
          (<["__loader__" := VNone]>
             (<["__spec__" := VNone]> ∅)))).

End Py.

Import Py.

#[global] Instance Exec_ret : MRet Exec := @Py.ret.
#[global] Instance Exec_bind : MBind Exec := fun A B k m => Py.bind m k.

(** ** String helpers for reading a version *)

Definition newline : string := String (ascii_of_nat 10) EmptyString.

(** Every line followed by a line feed. *)
Fixpoint unlines (ls : list string) : string :=
  match ls with
  | [] => EmptyString
  | l :: ls' => l +:+ newline +:+ unlines ls'
  end.

Definition is_digit (c : ascii) : bool :=
  let n := nat_of_ascii c in (48 <=? n)%nat && (n <=? 57)%nat.

Fixpoint all_digits (s : string) : bool :=
  match s with
  | EmptyString => true
  | String c r => is_digit c && all_digits r
  end.

(** A non-negative decimal integer as written: one digit or more. *)
Definition is_numeral (s : string) : bool :=
  match s with
  | EmptyString => false
  | String _ _ => all_digits s
  end.

Fixpoint numeral_value_acc (acc : N) (s : string) : N :=
  match s with
  | EmptyString => acc
  | String c r =>
      numeral_value_acc (acc * 10 + (N.of_nat (nat_of_ascii c) - 48))%N r
  end.

Definition numeral_value (s : string) : option N :=
  if is_numeral s then Some (numeral_value_acc 0%N s) else None.

(** [s.split(sep)] for a one-character separator. *)
Fixpoint split_on (sep : ascii) (s : string) : list string :=
  match s with
  | EmptyString => [EmptyString]
  | String c r =>
      if Ascii.eqb c sep then EmptyString :: split_on sep r
      else match split_on sep r with
           | h :: t => String c h :: t
           | [] => [String c EmptyString]
           end
  end.

(** [sep.join(ps)], the inverse of splitting. *)
Fixpoint join_with (sep : ascii) (ps : list string) : string :=
  match ps with
  | [] => EmptyString
  | p :: ps' =>
      match ps' with
      | [] => p
      | _ :: _ => p +:+ String sep (join_with sep ps')
      end
  end.

(** No character of [s] is the separator. *)
Fixpoint free_of (sep : ascii) (s : string) : bool :=
  match s with
  | EmptyString => true
  | String c r => negb (Ascii.eqb c sep) && free_of sep r
  end.

Definition dot : ascii := ascii_of_nat 46.

(** MAJOR.MINOR.PATCH, decided. *)
Definition is_semver (s : string) : bool :=
  match split_on dot s with
  | [a; b; c] => is_numeral a && is_numeral b && is_numeral c
  | _ => false
  end.

Definition parse_semver (s : string) : option (N * N * N) :=
  match split_on dot s with
  | [a; b; c] =>
      match numeral_value a, numeral_value b, numeral_value c with
      | Some x, Some y, Some z => Some (x, y, z)
      | _, _, _ => None
      end
  | _ => None
  end.

Definition semver_major (s : string) : option N :=
  match parse_semver s with
  | Some (major, _, _) => Some major
  | None => None
  end.

(** MAJOR.MINOR.PATCH, as a pattern: three numerals with a dot between
    them. *)
Definition semver_pattern (s : string) : Prop :=
  exists a b c : string,
    is_numeral a = true /\ is_numeral b = true /\ is_numeral c = true /\
    s = a +:+ "." +:+ b +:+ "." +:+ c.

(** ** The module [plugin] *)

Definition __doc__ : string :=
  unlines
    [ "KiCad Collab Plugin.";
      EmptyString;
      "This plugin generates interactive snapshots of KiCad schematics";
      "for collaborative review via web browser.";
      EmptyString;
      "Usage:";
      "    Install via KiCad Plugin Manager or clone to KiCad plugins directory.";
      "    Access via Tools > KiCad Collab > Generate Snapshot" ].

Definition __version__ : string := "0.1.0".

Definition __author__ : string := "KiCad Collab Contributors".

(** The module body, statement by statement. *)
Definition module_body : Exec unit :=
  store_name "__doc__" (VStr __doc__) ;;
  store_name "__version__" (VStr __version__) ;;
  store_name "__author__" (VStr __author__).

(** Run the body in a namespace: the namespace afterwards and what the
    body did. *)
Definition exec_module (ns : gmap string value)
  : Except (gmap string value * list event) :=
  match module_body {| f_globals := ns; f_trace := [] |} with
  | error e => error e
  | ok (_, f) => ok (f_globals f, f_trace f)
  end.

(** Loading the module: import, or reload when [ns] is the namespace of an
    earlier load. *)
Definition load (ns : gmap string value) : Except (gmap string value) :=
  match exec_module ns with
  | error e => error e
  | ok (ns', _) => ok ns'
  end.

Definition load_trace (ns : gmap string value) : list event :=
  match exec_module ns with
  | error _ => []
  | ok (_, tr) => tr
  end.

(** What the body adds to the trace, and what it makes of a namespace. *)
Definition the_stores : list event :=
  [ EvStore "__doc__" (VStr __doc__);
    EvStore "__version__" (VStr __version__);
    EvStore "__author__" (VStr __author__) ].

Definition after_body (ns : gmap string value) : gmap string value :=
  <["__author__" := VStr __author__]>
    (<["__version__" := VStr __version__]>
       (<["__doc__" := VStr __doc__]> ns)).

(** The names the body binds, in order, and the bindings it leaves. *)
Definition bound_names (tr : list event) : list string :=
  omap stored_name tr.

Definition bound_values (tr : list event) : list value :=
  omap stored_value tr.

(** The operations a module offers are the callables it binds. *)
Definition module_operations (tr : list event) : list (string * value) :=
  omap (fun e => match e with
                 | EvStore n v => if callable v then Some (n, v) else None
                 | _ => None
                 end) tr.

Definition stores_to (name : string) (tr : list event) : nat :=
  length (filter (fun e => stored_name e = Some name) tr).

(** The part of a namespace the module is responsible for. *)
Record module_state : Type := ModuleState {
  ms_doc : option value;
  ms_version : option value;
  ms_author : option value
}.

Definition module_state_of (ns : gmap string value) : module_state :=
  {| ms_doc := ns !! "__doc__";
     ms_version := ns !! "__version__";
     ms_author := ns !! "__author__" |}.

(** ** The life of the module under the host *)

Inductive mstate : Type :=
| Created (ns : gmap string value)
| Loaded (ns : gmap string value)
| Failed (e : exn).

Inductive host_op : Type :=
| OpLoad
| OpGetattr (name : string).

Definition do_load (ns : gmap string value) : mstate :=
  match load ns with
  | ok ns' => Loaded ns'
  | error e => Failed e
  end.

Definition host_step (s : mstate) (op : host_op) : mstate :=
  match s, op with
  | Created ns, OpLoad => do_load ns
  | Loaded ns, OpLoad => do_load ns
  | Created ns, OpGetattr n => Created (snd (getattr n ns))
  | Loaded ns, OpGetattr n => Loaded (snd (getattr n ns))
  | Failed e, _ => Failed e
  end.

Definition host_run (ops : list host_op) (s : mstate) : mstate :=
  foldl host_step s ops.

(** A state the host can be in once the module has been loaded. *)
Definition after_load (s : mstate) : Prop :=
  exists ns0 ops, s = host_run (OpLoad :: ops) (Created ns0).

(** What a read gives in a state. *)
Definition read (name : string) (s : mstate) : Except value :=
  match s with
  | Created ns | Loaded ns => fst (getattr name ns)
  | Failed e => error e
  end.

(** A run the host may make of a freshly created module [plugin]. *)
Definition sample_ops : list host_op :=
  [OpGetattr "__version__"; OpLoad; OpGetattr "__author__"; OpGetattr "run"].

Definition plugin_loaded : gmap string value :=
  after_body (new_module "plugin").

(** ** Sanity checks on concrete inputs *)

Example docstring_length : String.length __doc__ = 266.
Proof. reflexivity. Qed.

Example split_version : split_on dot __version__ = ["0"; "1"; "0"].
Proof. reflexivity. Qed.

Example split_two_parts : is_semver "0.1" = false.
Proof. reflexivity. Qed.

Example split_empty_part : is_semver "0..1" = false.
Proof. reflexivity. Qed.

Example split_letters : is_semver "1.2.x" = false.
Proof. reflexivity. Qed.

Example parse_big : parse_semver "12.0.345" = Some (12%N, 0%N, 345%N).
Proof. reflexivity. Qed.

Example fresh_load_version :
  match load (new_module "plugin") with
  | ok ns => ns !! "__version__" = Some (VStr "0.1.0")
  | error _ => False
  end.
Proof. reflexivity. Qed.

Example fresh_read_before_load :
  fst (getattr "__version__" (new_module "plugin")) =
  error (AttributeError "__version__").
Proof. reflexivity. Qed.

(** ** Splitting and joining *)

Lemma split_on_cons (sep : ascii) (s : string) :
  exists h t, split_on sep s = h :: t.
Proof.
  destruct s as [|c r]; simpl; [by eauto|].
  destruct (Ascii.eqb c sep); [by eauto|].
  destruct (split_on sep r); eauto.
Qed.

Lemma join_with_cons_cons (sep : ascii) (p q : string) (ps : list string) :
  join_with sep (p :: q :: ps) = p +:+ String sep (join_with sep (q :: ps)).
Proof. reflexivity. Qed.

Lemma join_with_push (sep c : ascii) (h : string) (t : list string) :
  join_with sep (String c h :: t) = String c (join_with sep (h :: t)).
Proof. destruct t; reflexivity. Qed.

Lemma join_split_on (sep : ascii) (s : string) :
  join_with sep (split_on sep s) = s.
Proof.
  induction s as [|c r IH]; [reflexivity|].
  cbn [split_on].
  destruct (Ascii.eqb_spec c sep) as [->|Hne].
  - destruct (split_on_cons sep r) as (h & t & E).
    rewrite E in IH |- *. rewrite join_with_cons_cons, IH. reflexivity.
  - destruct (split_on_cons sep r) as (h & t & E).
    rewrite E in IH |- *. rewrite join_with_push, IH. reflexivity.
Qed.

Lemma split_on_free (sep : ascii) (a : string) :
  free_of sep a = true -> split_on sep a = [a].
Proof.
  induction a as [|c a IH]; [reflexivity|].
  cbn [free_of split_on]. intros H.
  apply andb_true_iff in H as [Hc Ha].
  apply negb_true_iff in Hc. rewrite Hc, (IH Ha). reflexivity.
Qed.

Lemma split_on_app (sep : ascii) (a r : string) :
  free_of sep a = true ->
  split_on sep (a +:+ String sep r) = a :: split_on sep r.
Proof.
  induction a as [|c a IH]; simpl.
  - intros _. rewrite Ascii.eqb_refl. reflexivity.
  - intros H. apply andb_true_iff in H as [Hc Ha].
    apply negb_true_iff in Hc. rewrite Hc, (IH Ha). reflexivity.
Qed.

Lemma digit_is_not_dot (c : ascii) :
  is_digit c = true -> Ascii.eqb c dot = false.
Proof.
  intros H. destruct (Ascii.eqb_spec c dot) as [->|]; [|reflexivity].
  discriminate H.
Qed.

Lemma all_digits_free_of_dot (s : string) :
  all_digits s = true -> free_of dot s = true.
Proof.
  induction s as [|c r IH]; [reflexivity|].
  cbn [all_digits free_of]. intros H.
  apply andb_true_iff in H as [Hc Hr].
  rewrite (digit_is_not_dot c Hc), (IH Hr). reflexivity.
Qed.

Lemma numeral_free_of_dot (s : string) :
  is_numeral s = true -> free_of dot s = true.
Proof.
  destruct s as [|c r]; [discriminate|]. apply all_digits_free_of_dot.
Qed.

(** The decision procedure and the pattern say the same. *)
Lemma is_semver_spec (s : string) :
  is_semver s = true <-> semver_pattern s.
Proof.
  split.
  - unfold is_semver. intros H.
    pose proof (join_split_on dot s) as J.
    destruct (split_on dot s) as [|a [|b [|c [|d l]]]]; try discriminate H.
    apply andb_true_iff in H as [H Hc].
    apply andb_true_iff in H as [Ha Hb].
    exists a, b, c. repeat split; try assumption.
    rewrite <- J. reflexivity.
  - intros (a & b & c & Ha & Hb & Hc & ->).
    unfold is_semver.
    change (a +:+ "." +:+ b +:+ "." +:+ c)
      with (a +:+ String dot (b +:+ String dot c)).
    rewrite (split_on_app dot a _ (numeral_free_of_dot a Ha)).
    rewrite (split_on_app dot b _ (numeral_free_of_dot b Hb)).
    rewrite (split_on_free dot c (numeral_free_of_dot c Hc)).
    rewrite Ha, Hb, Hc. reflexivity.
Qed.

(** ** What the body does to a frame and to a namespace *)

Lemma module_body_frame (f : frame) :
  module_body f =
  ok (tt, {| f_globals := after_body (f_globals f);
             f_trace := f_trace f ++ the_stores |}).
Proof.
  unfold module_body, mbind, Exec_bind, Py.bind, store_name; cbn.
  rewrite <- !app_assoc. reflexivity.
Qed.

Lemma exec_module_eq (ns : gmap string value) :
  exec_module ns = ok (after_body ns, the_stores).
Proof. reflexivity. Qed.

Lemma load_eq (ns : gmap string value) : load ns = ok (after_body ns).
Proof. reflexivity. Qed.

Lemma load_trace_eq (ns : gmap string value) : load_trace ns = the_stores.
Proof. reflexivity. Qed.

Lemma after_body_version (ns : gmap string value) :
  after_body ns !! "__version__" = Some (VStr __version__).
Proof.
  unfold after_body.
  rewrite lookup_insert_ne by discriminate. apply lookup_insert_eq.
Qed.

Lemma after_body_author (ns : gmap string value) :
  after_body ns !! "__author__" = Some (VStr __author__).
Proof. unfold after_body. apply lookup_insert_eq. Qed.

Lemma after_body_doc (ns : gmap string value) :
  after_body ns !! "__doc__" = Some (VStr __doc__).
Proof.
  unfold after_body.
  rewrite !lookup_insert_ne by discriminate. apply lookup_insert_eq.
Qed.

Lemma after_body_other (ns : gmap string value) (n : string) :
  n <> "__doc__" -> n <> "__version__" -> n <> "__author__" ->
  after_body ns !! n = ns !! n.
Proof.
  intros Hd Hv Ha. unfold after_body.
  rewrite !lookup_insert_ne by congruence. reflexivity.
Qed.

Lemma after_body_idem (ns : gmap string value) :
  after_body (after_body ns) = after_body ns.
Proof.
  apply map_eq. intros n.
  destruct (decide (n = "__author__")) as [->|Ha];
    [by rewrite !after_body_author|].
  destruct (decide (n = "__version__")) as [->|Hv];
    [by rewrite !after_body_version|].
  destruct (decide (n = "__doc__")) as [->|Hd];
    [by rewrite !after_body_doc|].
  by rewrite !after_body_other.
Qed.

Lemma after_body_dom (ns : gmap string value) :
  dom (after_body ns) =
  {["__doc__"; "__version__"; "__author__"]} ∪ dom ns.
Proof.
  unfold after_body. rewrite !dom_insert_L.
  apply set_eq. intros n. rewrite !elem_of_union, !elem_of_singleton. tauto.
Qed.

(** ** The host's runs *)

Lemma getattr_keeps (n : string) (ns : gmap string value) :
  snd (getattr n ns) = ns.
Proof. reflexivity. Qed.

Lemma host_step_loaded (ns : gmap string value) (op : host_op) :
  host_step (Loaded (after_body ns)) op = Loaded (after_body ns).
Proof.
  destruct op as [|n]; cbn [host_step].
  - unfold do_load. rewrite load_eq, after_body_idem. reflexivity.
  - rewrite getattr_keeps. reflexivity.
Qed.

Lemma host_run_loaded (ops : list host_op) (ns : gmap string value) :
  host_run ops (Loaded (after_body ns)) = Loaded (after_body ns).
Proof.
  unfold host_run. induction ops as [|op ops IH]; [reflexivity|].
  cbn [foldl]. rewrite host_step_loaded. exact IH.
Qed.

Lemma host_run_after_load (ops : list host_op) (ns0 : gmap string value) :
  host_run (OpLoad :: ops) (Created ns0) = Loaded (after_body ns0).
Proof.
  unfold host_run. cbn [foldl host_step]. unfold do_load. rewrite load_eq.
  apply host_run_loaded.
Qed.

Lemma host_run_created (ops : list host_op) (ns0 : gmap string value) :
  host_run ops (Created ns0) = Created ns0 \/
  host_run ops (Created ns0) = Loaded (after_body ns0).
Proof.
  unfold host_run. induction ops as [|op ops IH]; [by left|].
  destruct op as [|n]; cbn [foldl host_step].
  - right. apply (host_run_after_load ops ns0).
  - rewrite getattr_keeps. exact IH.
Qed.

Lemma host_run_reads (names : list string) (ns : gmap string value) :
  host_run (OpGetattr <$> names) (Loaded ns) = Loaded ns.
Proof.
  unfold host_run. induction names as [|n names IH]; [reflexivity|].
  cbn [fmap list_fmap foldl host_step]. rewrite getattr_keeps. exact IH.
Qed.

(** ** The properties of the module *)

(** C1.  [__version__] is a string of the form MAJOR.MINOR.PATCH, three
    non-negative decimal integers with a dot between them: the constant
    matches the pattern, the decision procedure accepts it, it reads as
    three numbers, and it is the value every load binds to the name. *)
Theorem version_matches_semver :
  semver_pattern __version__ /\
  is_semver __version__ = true /\
  (exists major minor patch : N,
      parse_semver __version__ = Some (major, minor, patch)) /\
  forall ns : gmap string value, exists ns',
    load ns = ok ns' /\ ns' !! "__version__" = Some (VStr __version__).
Proof.
  split; [|split; [|split]].
  - apply is_semver_spec. reflexivity.
  - reflexivity.
  - exists 0%N, 1%N, 0%N. reflexivity.
  - intros ns. exists (after_body ns). split.
    + apply load_eq.
    + apply after_body_version.
Qed.

(** C2.  In every state the host can reach once the module has been loaded
    (by further reads and reloads, the module offering no operation of its
    own), the module is loaded and both [__version__] and [__author__] are
    bound to non-empty strings. *)
Theorem nonempty_in_every_state_after_load (s : mstate) :
  after_load s ->
  exists (ns : gmap string value) (v a : string),
    s = Loaded ns /\
    ns !! "__version__" = Some (VStr v) /\ (0 < String.length v)%nat /\
    ns !! "__author__" = Some (VStr a) /\ (0 < String.length a)%nat.
Proof.
  intros (ns0 & ops & ->).
  exists (after_body ns0), __version__, __author__.
  split; [apply host_run_after_load|].
  split; [apply after_body_version|].
  split; [cbn; lia|].
  split; [apply after_body_author|cbn; lia].
Qed.

Lemma nonempty_in_every_state_after_load_witness :
  after_load (host_run (OpLoad :: sample_ops) (Created (new_module "plugin"))) /\
  exists (ns : gmap string value) (v a : string),
    host_run (OpLoad :: sample_ops) (Created (new_module "plugin")) = Loaded ns /\
    ns !! "__version__" = Some (VStr v) /\ (0 < String.length v)%nat /\
    ns !! "__author__" = Some (VStr a) /\ (0 < String.length a)%nat.
Proof.
  split.
  - exists (new_module "plugin"), sample_ops. reflexivity.
  - apply (nonempty_in_every_state_after_load
             (host_run (OpLoad :: sample_ops) (Created (new_module "plugin")))).
    exists (new_module "plugin"), sample_ops. reflexivity.
Defined.

(** C3.  Loading the module always succeeds: from every frame the body
    runs to completion without raising, and from every namespace the load
    returns the ok branch. *)
Theorem load_always_succeeds :
  (forall f : frame, exists f', module_body f = ok (tt, f')) /\
  (forall ns : gmap string value, exists ns', load ns = ok ns') /\
  (forall (ns : gmap string value) (e : exn), load ns <> error e).
Proof.
  split; [|split].
  - intros f. eexists. apply module_body_frame.
  - intros ns. exists (after_body ns). apply load_eq.
  - intros ns e. rewrite load_eq. discriminate.
Qed.

(** C4.  After a successful load the module exposes [__version__] and
    [__author__]: the host's lookup of each succeeds and returns a
    string. *)
Theorem attributes_exposed_after_load (ns ns' : gmap string value) :
  load ns = ok ns' ->
  exists v a : string,
    fst (getattr "__version__" ns') = ok (VStr v) /\
    fst (getattr "__author__" ns') = ok (VStr a).
Proof.
  rewrite load_eq. intros [= <-].
  exists __version__, __author__. unfold getattr. cbn [fst].
  rewrite after_body_version, after_body_author. split; reflexivity.
Qed.

Lemma attributes_exposed_after_load_witness :
  load (new_module "plugin") = ok plugin_loaded /\
  exists v a : string,
    fst (getattr "__version__" plugin_loaded) = ok (VStr v) /\
    fst (getattr "__author__" plugin_loaded) = ok (VStr a).
Proof.
  split.
  - reflexivity.
  - apply (attributes_exposed_after_load (new_module "plugin") plugin_loaded).
    reflexivity.
Defined.

(** C5.  All that evaluating the module does is bind the docstring and the
    two constants: the names bound are exactly [__doc__], [__version__] and
    [__author__], each to a string (no function, no class, nothing
    callable), every event of the body is such a binding (no import, no
    call), the namespace gains these three names and no other, and every
    other name keeps the value it had. *)
Theorem surface_is_docstring_and_two_constants (ns : gmap string value) :
  exists (ns' : gmap string value) (tr : list event),
    exec_module ns = ok (ns', tr) /\
    bound_names tr = ["__doc__"; "__version__"; "__author__"] /\
    bound_values tr = [VStr __doc__; VStr __version__; VStr __author__] /\
    Forall (fun v => is_str v = true /\ callable v = false) (bound_values tr) /\
    Forall (fun e => is_store e = true /\ is_import e = false /\
                     is_call e = false) tr /\
    module_operations tr = [] /\
    dom ns' = {["__doc__"; "__version__"; "__author__"]} ∪ dom ns /\
    forall n : string, n ∉ bound_names tr -> ns' !! n = ns !! n.
Proof.
  exists (after_body ns), the_stores.
  split; [apply exec_module_eq|].
  split; [reflexivity|].
  split; [reflexivity|].
  split; [repeat constructor|].
  split; [repeat constructor|].
  split; [reflexivity|].
  split; [apply after_body_dom|].
  intros n Hn. cbn in Hn.
  apply after_body_other; intros ->; apply Hn; set_solver.
Qed.

(** C6.  [__version__] and [__author__] are set once by the load and only
    read afterwards: the body stores each name exactly once and offers no
    operation, a read leaves the namespace as it was, any sequence of reads
    leaves the loaded state as it was, and after any sequence of reads and
    reloads a read of either attribute returns the same string. *)
Theorem constants_set_once_then_read_only (ns ns' : gmap string value) :
  load ns = ok ns' ->
  stores_to "__version__" (load_trace ns) = 1%nat /\
  stores_to "__author__" (load_trace ns) = 1%nat /\
  module_operations (load_trace ns) = [] /\
  (forall n : string, snd (getattr n ns') = ns') /\
  (forall names : list string,
      host_run (OpGetattr <$> names) (Loaded ns') = Loaded ns') /\
  (forall ops : list host_op,
      read "__version__" (host_run ops (Loaded ns')) = ok (VStr __version__) /\
      read "__author__" (host_run ops (Loaded ns')) = ok (VStr __author__)).
Proof.
  rewrite load_eq. intros [= <-].
  split; [reflexivity|].
  split; [reflexivity|].
  split; [reflexivity|].
  split; [intros n; apply getattr_keeps|].
  split; [intros names; apply host_run_reads|].
  intros ops. rewrite host_run_loaded. unfold read, getattr. cbn [fst].
  rewrite after_body_version, after_body_author. split; reflexivity.
Qed.

Lemma constants_set_once_then_read_only_witness :
  load (new_module "plugin") = ok plugin_loaded /\
  stores_to "__version__" (load_trace (new_module "plugin")) = 1%nat /\
  stores_to "__author__" (load_trace (new_module "plugin")) = 1%nat /\
  module_operations (load_trace (new_module "plugin")) = [] /\
  (forall n : string, snd (getattr n plugin_loaded) = plugin_loaded) /\
  (forall names : list string,
      host_run (OpGetattr <$> names) (Loaded plugin_loaded) =
      Loaded plugin_loaded) /\
  (forall ops : list host_op,
      read "__version__" (host_run ops (Loaded plugin_loaded)) =
      ok (VStr __version__) /\
      read "__author__" (host_run ops (Loaded plugin_loaded)) =
      ok (VStr __author__)).
Proof.
  split.
  - reflexivity.
  - apply (constants_set_once_then_read_only (new_module "plugin") plugin_loaded).
    reflexivity.
Defined.

(** C7.  The module defines no operation that can fail: evaluating it
    succeeds, it binds nothing callable and so offers no operation, and no
    run of the host (loads, reloads and reads, from any created module)
    reaches a failed state. *)
Theorem no_operation_can_fail (ns0 : gmap string value) (ops : list host_op) :
  (exists ns', load ns0 = ok ns') /\
  module_operations (load_trace ns0) = [] /\
  Forall (fun v => callable v = false) (bound_values (load_trace ns0)) /\
  forall e : exn, host_run ops (Created ns0) <> Failed e.
Proof.
  split; [exists (after_body ns0); apply load_eq|].
  split; [reflexivity|].
  split; [repeat constructor|].
  intros e. destruct (host_run_created ops ns0) as [-> | ->]; discriminate.
Qed.

(** C8.  Evaluating the module does no I/O, spawns nothing and acquires
    nothing: from every frame, what the body adds to the trace is the three
    bindings, of the docstring and of the two string constants, in this
    order, and none of them is an I/O, spawn or acquire event. *)
Theorem load_effects_are_three_bindings (f : frame) :
  exists (f' : frame) (tr : list event),
    module_body f = ok (tt, f') /\
    f_trace f' = f_trace f ++ tr /\
    tr = [ EvStore "__doc__" (VStr __doc__);
           EvStore "__version__" (VStr "0.1.0");
           EvStore "__author__" (VStr "KiCad Collab Contributors") ] /\
    Forall (fun e => is_store e = true /\ is_io e = false /\
                     is_spawn e = false /\ is_acquire e = false) tr.
Proof.
  eexists _, the_stores.
  split; [apply module_body_frame|].
  split; [reflexivity|].
  split; [reflexivity|].
  repeat constructor.
Qed.

(** C9.  After a load [__version__] is exactly "0.1.0", whose MAJOR
    component is 0, and [__author__] is exactly
    "KiCad Collab Contributors". *)
Theorem exact_metadata_values (ns : gmap string value) :
  exists ns' : gmap string value,
    load ns = ok ns' /\
    ns' !! "__version__" = Some (VStr "0.1.0") /\
    ns' !! "__author__" = Some (VStr "KiCad Collab Contributors") /\
    semver_major "0.1.0" = Some 0%N.
Proof.
  exists (after_body ns).
  split; [apply load_eq|].
  split; [apply after_body_version|].
  split; [apply after_body_author|reflexivity].
Qed.

(** C10.  Loading is deterministic: two loads, from any two namespaces,
    both succeed, do the same things, and leave the same module state, that
    is the same docstring, the same [__version__] and the same
    [__author__]; loading again changes nothing.  The whole namespaces
    are equal as soon as the starting ones agree on the names the body does
    not bind. *)
Theorem load_is_deterministic (ns1 ns2 : gmap string value) :
  exists (ns1' ns2' : gmap string value) (tr : list event),
    exec_module ns1 = ok (ns1', tr) /\
    exec_module ns2 = ok (ns2', tr) /\
    module_state_of ns1' = module_state_of ns2' /\
    module_state_of ns1' =
      {| ms_doc := Some (VStr __doc__);
         ms_version := Some (VStr __version__);
         ms_author := Some (VStr __author__) |} /\
    load ns1' = ok ns1' /\
    ((forall n : string,
         n ∉ ["__doc__"; "__version__"; "__author__"] ->
         ns1 !! n = ns2 !! n) ->
     ns1' = ns2').
Proof.
  exists (after_body ns1), (after_body ns2), the_stores.
  split; [apply exec_module_eq|].
  split; [apply exec_module_eq|].
  unfold module_state_of.
  rewrite !after_body_doc, !after_body_version, !after_body_author.
  split; [reflexivity|].
  split; [reflexivity|].
  split; [rewrite load_eq, after_body_idem; reflexivity|].
  intros Hagree. apply map_eq. intros n.
  destruct (decide (n = "__author__")) as [->|Ha];
    [by rewrite !after_body_author|].
  destruct (decide (n = "__version__")) as [->|Hv];
    [by rewrite !after_body_version|].
  destruct (decide (n = "__doc__")) as [->|Hd];
    [by rewrite !after_body_doc|].
  rewrite !after_body_other by assumption.
  apply Hagree. rewrite !not_elem_of_cons.
  repeat split; try assumption. apply not_elem_of_nil.
Qed.
